(** * LGE SmartThinQ climate adapter: [custom_components/smartthinq_sensors/climate.py]

    A shallow embedding of the air-conditioner climate entity [LGEACClimate]
    and of the two module-level translation tables, with the properties the
    specification states about them.

    Conventions.
    - A Python [str] is a [string]; a value that may be [None] is an [option].
    - A Python [dict] with string keys is an insertion-ordered association
      list ([PyDict]); assignment to an existing key replaces the value in
      place, assignment to a new key appends.
    - A Python [int] used as a bit mask is a [Z].
    - The constants imported from the host framework are the fields of the
      classes [HvacModes], [ClimateFeatures] and [DefaultTemps];
      [homeassistant] holds the values Home Assistant gives them.
    - The protocol device is external: its mutators are a handler over an
      abstract world, and every call issued to it is logged. *)

From Stdlib Require Import String List ZArith Lia Bool.
Import ListNotations.
Local Open Scope string_scope.
Local Open Scope list_scope.

(** ** Python dictionaries with string keys *)

Module PyDict.

Definition t (V : Type) : Type := list (string * V).

(** [d.get(k)] *)
Fixpoint get {V : Type} (d : t V) (k : string) : option V :=
  match d with
  | [] => None
  | (k', v) :: rest => if String.eqb k' k then Some v else get rest k
  end.

(** [d[k] = v] *)
Fixpoint set {V : Type} (d : t V) (k : string) (v : V) : t V :=
  match d with
  | [] => [(k, v)]
  | (k', v') :: rest =>
      if String.eqb k' k then (k', v) :: rest else (k', v') :: set rest k v
  end.

(** [d.get(k)] for a key that may be [None]; [None] is not a key of a
    dictionary of this type. *)
Definition get_opt {V : Type} (d : t V) (k : option string) : option V :=
  match k with
  | Some k' => get d k'
  | None => None
  end.

(** [k in d] *)
Definition contains {V : Type} (d : t V) (k : string) : bool :=
  match get d k with
  | Some _ => true
  | None => false
  end.

(** [d.items()], in insertion order *)
Definition items {V : Type} (d : t V) : list (string * V) := d.

(** The display [{k1: v1, ..., kn: vn}] and the comprehension
    [{k: v for ...}]: the pairs are assigned from left to right. *)
Definition of_pairs {V : Type} (kvs : list (string * V)) : t V :=
  fold_left (fun d kv => set d (fst kv) (snd kv)) kvs [].

(** [{v: k for k, v in d.items()}] *)
Definition inverted (d : t string) : t string :=
  of_pairs (map (fun kv => (snd kv, fst kv)) (items d)).

Definition keys {V : Type} (d : t V) : list string := map fst d.

Definition values {V : Type} (d : t V) : list V := map snd d.

End PyDict.

(** ** Imported names *)

(** [homeassistant.components.climate.const]: the HVAC mode vocabulary. *)
Class HvacModes : Type := {
  HVAC_MODE_AUTO : string;
  HVAC_MODE_COOL : string;
  HVAC_MODE_DRY : string;
  HVAC_MODE_FAN_ONLY : string;
  HVAC_MODE_HEAT : string;
  HVAC_MODE_HEAT_COOL : string;
  HVAC_MODE_OFF : string
}.

(** [homeassistant.components.climate.const]: the feature bit masks. *)
Class ClimateFeatures : Type := {
  SUPPORT_FAN_MODE : Z;
  SUPPORT_SWING_MODE : Z;
  SUPPORT_TARGET_TEMPERATURE : Z
}.

(** [homeassistant.components.climate.const]: the default temperature
    bounds, in the temperature type of the device client. *)
Class DefaultTemps (Temp : Type) : Type := {
  DEFAULT_MAX_TEMP : Temp;
  DEFAULT_MIN_TEMP : Temp
}.

(** The values Home Assistant defines. *)
Module homeassistant.

Definition modes : HvacModes := {|
  HVAC_MODE_AUTO := "auto";
  HVAC_MODE_COOL := "cool";
  HVAC_MODE_DRY := "dry";
  HVAC_MODE_FAN_ONLY := "fan_only";
  HVAC_MODE_HEAT := "heat";
  HVAC_MODE_HEAT_COOL := "heat_cool";
  HVAC_MODE_OFF := "off"
|}.

Definition features : ClimateFeatures := {|
  SUPPORT_FAN_MODE := 8%Z;
  SUPPORT_SWING_MODE := 32%Z;
  SUPPORT_TARGET_TEMPERATURE := 1%Z
|}.

Definition temps : DefaultTemps Z := {|
  DEFAULT_MAX_TEMP := 35%Z;
  DEFAULT_MIN_TEMP := 7%Z
|}.

End homeassistant.

(** [wideq.ac.ACMode], restricted to the members this module names.  The
    [name] of an enumeration member is its identifier. *)
Module ACMode.

Inductive t : Type := AI | HEAT | DRY | COOL | FAN | ACO.

Definition name (m : t) : string :=
  match m with
  | AI => "AI"
  | HEAT => "HEAT"
  | DRY => "DRY"
  | COOL => "COOL"
  | FAN => "FAN"
  | ACO => "ACO"
  end.

End ACMode.

(** The cached state behind [self._api.state]. *)
Record ACState : Type := {
  is_on : bool;
  operation_mode : option string
}.

(** The capability attributes of the protocol device [self._device]. *)
Record AirConditionerDevice (Temp : Type) : Type := {
  op_modes : list string;
  vert_swing_modes : list string;
  target_temperature_min : option Temp;
  target_temperature_max : option Temp;
  conv_temp_unit : Temp -> Temp
}.

Arguments op_modes {Temp} _.
Arguments vert_swing_modes {Temp} _.
Arguments target_temperature_min {Temp} _.
Arguments target_temperature_max {Temp} _.
Arguments conv_temp_unit {Temp} _ _.

(** The mutators of the protocol device this module calls. *)
Inductive DeviceCall : Type :=
| power (turn_on : bool)
| set_op_mode (mode : string).

(** ** Module-level tables *)

Section Tables.

Context {modes : HvacModes}.

Definition HVAC_MODE_LOOKUP : PyDict.t string :=
  PyDict.of_pairs
    [ (ACMode.name ACMode.AI, HVAC_MODE_AUTO);
      (ACMode.name ACMode.HEAT, HVAC_MODE_HEAT);
      (ACMode.name ACMode.DRY, HVAC_MODE_DRY);
      (ACMode.name ACMode.COOL, HVAC_MODE_COOL);
      (ACMode.name ACMode.FAN, HVAC_MODE_FAN_ONLY);
      (ACMode.name ACMode.ACO, HVAC_MODE_HEAT_COOL) ].

Definition HVAC_MODE_REVERSE_LOOKUP : PyDict.t string :=
  PyDict.inverted HVAC_MODE_LOOKUP.

(** The six host modes that appear as values of the display. *)
Definition translated_modes : list string :=
  [ HVAC_MODE_AUTO; HVAC_MODE_HEAT; HVAC_MODE_DRY; HVAC_MODE_COOL;
    HVAC_MODE_FAN_ONLY; HVAC_MODE_HEAT_COOL ].

(** The host vocabulary: off, auto, heat, cool, dry, fan-only, heat-cool. *)
Definition hvac_vocabulary : list string :=
  [ HVAC_MODE_OFF; HVAC_MODE_AUTO; HVAC_MODE_HEAT; HVAC_MODE_COOL;
    HVAC_MODE_DRY; HVAC_MODE_FAN_ONLY; HVAC_MODE_HEAT_COOL ].

(** A host mode has a vendor counterpart that translates back to it. *)
Definition has_counterpart (h : string) : Prop :=
  exists k, PyDict.get HVAC_MODE_REVERSE_LOOKUP h = Some k
            /\ PyDict.get HVAC_MODE_LOOKUP k = Some h.

End Tables.

(** ** Results of calls that may raise *)

Inductive PyExc (DevExn : Type) : Type :=
| ValueError (msg : string)
| DeviceError (e : DevExn).

Arguments ValueError {DevExn} msg.
Arguments DeviceError {DevExn} e.

Inductive Outcome (DevExn A : Type) : Type :=
| Returned (a : A)
| Raised (e : PyExc DevExn).

Arguments Returned {DevExn A} a.
Arguments Raised {DevExn A} e.

(** An error message names its subject when the subject occurs in it. *)
Definition names (msg subject : string) : Prop :=
  exists before after, msg = (before ++ subject ++ after)%string.

(** What a method runs against: the state of the external device client and
    the log of the calls issued to the protocol device so far. *)
Record Env (World : Type) : Type := {
  world : World;
  issued : list DeviceCall
}.

Arguments world {World} _.
Arguments issued {World} _.

(** ** The state-and-exception monad of the entity's methods *)

Section Run.

Variables World DevExn : Type.

(** [self._api.state] *)
Variable api_state : World -> ACState.

(** The protocol device executing one call: the exception it raised, if
    any, and the world it leaves. *)
Variable device_run : DeviceCall -> World -> option DevExn * World.

Definition Run (A : Type) : Type :=
  Env World -> Outcome DevExn A * Env World.

Definition ret {A : Type} (a : A) : Run A :=
  fun env => (Returned a, env).

Definition bind {A B : Type} (m : Run A) (k : A -> Run B) : Run B :=
  fun env =>
    match m env with
    | (Returned a, env') => k a env'
    | (Raised e, env') => (Raised e, env')
    end.

Definition raise {A : Type} (e : PyExc DevExn) : Run A :=
  fun env => (Raised e, env).

(** Evaluate a read-only property on the cached state. *)
Definition read {A : Type} (property : ACState -> A) : Run A :=
  fun env => (Returned (property (api_state (world env))), env).

(** [self._device.<call>]: the call is logged, then executed; an exception
    of the device client propagates. *)
Definition call (c : DeviceCall) : Run unit :=
  fun env =>
    let (failure, w) := device_run c (world env) in
    let env' := {| world := w; issued := issued env ++ [c] |} in
    match failure with
    | None => (Returned tt, env')
    | Some e => (Raised (DeviceError e), env')
    end.

End Run.

Arguments ret {World DevExn A} a.
Arguments bind {World DevExn A B} m k.
Arguments raise {World DevExn A} e.
Arguments read {World DevExn} api_state {A} property.
Arguments call {World DevExn} device_run c.

Declare Scope run_scope.
Delimit Scope run_scope with run.
Notation "x <- m ;; k" := (bind m (fun x => k))
  (at level 61, m at next level, right associativity) : run_scope.
Notation "m ;; k" := (bind m (fun _ => k))
  (at level 61, right associativity) : run_scope.

(** ** [LGEACClimate] *)

Section LGEACClimate.

Context {modes : HvacModes} {flags : ClimateFeatures}.
Context {Temp : Type} {temps : DefaultTemps Temp}.

(** [x == HVAC_MODE_...] for a value that may be [None] *)
Definition py_eq_str (x : option string) (s : string) : bool :=
  match x with
  | Some x' => String.eqb x' s
  | None => false
  end.

(** [x is None] *)
Definition py_is_none {A : Type} (x : option A) : bool :=
  match x with
  | Some _ => false
  | None => true
  end.

(** *** Read-only properties *)

Definition hvac_mode (state : ACState) : option string :=
  let mode := operation_mode state in
  if negb (is_on state) || py_is_none mode
  then Some HVAC_MODE_OFF
  else PyDict.get_opt HVAC_MODE_LOOKUP mode.

Definition hvac_modes (device : AirConditionerDevice Temp)
  : list (option string) :=
  [Some HVAC_MODE_OFF]
    ++ map (fun mode => PyDict.get HVAC_MODE_LOOKUP mode)
           (filter (fun mode => PyDict.contains HVAC_MODE_LOOKUP mode)
                   (op_modes device)).

Definition supported_features (device : AirConditionerDevice Temp) : Z :=
  let features := Z.lor SUPPORT_FAN_MODE SUPPORT_TARGET_TEMPERATURE in
  if Nat.ltb 1 (length (vert_swing_modes device))
  then Z.lor features SUPPORT_SWING_MODE
  else features.

Definition min_temp (device : AirConditionerDevice Temp) : Temp :=
  let min_value := target_temperature_min device in
  match min_value with
  | Some min_value' => min_value'
  | None => conv_temp_unit device DEFAULT_MIN_TEMP
  end.

Definition max_temp (device : AirConditionerDevice Temp) : Temp :=
  let max_value := target_temperature_max device in
  match max_value with
  | Some max_value' => max_value'
  | None => conv_temp_unit device DEFAULT_MAX_TEMP
  end.

(** A feature mask includes a flag when all bits of the flag are set. *)
Definition has_flag (mask flag : Z) : Prop := Z.land mask flag = flag.

(** *** Methods *)

Section Methods.

Variables World DevExn : Type.
Variable api_state : World -> ACState.
Variable device_run : DeviceCall -> World -> option DevExn * World.

Local Open Scope run_scope.

Definition set_hvac_mode (hvac_mode_arg : string) : Run World DevExn unit :=
  if String.eqb hvac_mode_arg HVAC_MODE_OFF then
    call device_run (power false)
  else
    let operation_mode := PyDict.get HVAC_MODE_REVERSE_LOOKUP hvac_mode_arg in
    match operation_mode with
    | None =>
        raise (ValueError ("Invalid hvac_mode [" ++ hvac_mode_arg ++ "]")%string)
    | Some operation_mode' =>
        current <- read api_state hvac_mode ;;
        (if py_eq_str current HVAC_MODE_OFF
         then call device_run (power true)
         else ret tt) ;;
        call device_run (set_op_mode operation_mode')
    end.

Definition turn_on : Run World DevExn unit :=
  call device_run (power true).

Definition turn_off : Run World DevExn unit :=
  call device_run (power false).

End Methods.

End LGEACClimate.

Arguments set_hvac_mode {modes World DevExn} api_state device_run hvac_mode_arg.
Arguments turn_on {World DevExn} device_run.
Arguments turn_off {World DevExn} device_run.

(** ** A simulated device client

    A small client on which the methods can be run: the world is the cached
    state together with a flag telling whether the appliance answers.  A
    reachable appliance obeys each call; an unreachable one raises and
    changes nothing. *)

Module Simulated.

Record World : Type := {
  state : ACState;
  reachable : bool
}.

Definition DevExn : Type := string.

Definition api_state (w : World) : ACState := state w.

Definition obey (c : DeviceCall) (s : ACState) : ACState :=
  match c with
  | power turn_on =>
      {| is_on := turn_on; operation_mode := operation_mode s |}
  | set_op_mode mode =>
      {| is_on := is_on s; operation_mode := Some mode |}
  end.

Definition device_run (c : DeviceCall) (w : World) : option DevExn * World :=
  if reachable w
  then (None, {| state := obey c (state w); reachable := true |})
  else (Some "device unreachable", w).

(** A switched-off appliance that last ran in cooling mode. *)
Definition idle : Env World := {|
  world := {| state := {| is_on := false; operation_mode := Some "COOL" |};
              reachable := true |};
  issued := []
|}.

(** The same appliance, not answering. *)
Definition lost : Env World := {|
  world := {| state := {| is_on := false; operation_mode := Some "COOL" |};
              reachable := false |};
  issued := []
|}.

(** An appliance running in a mode the table does not translate. *)
Definition purifying : ACState :=
  {| is_on := true; operation_mode := Some "AIRCLEAN" |}.

(** A protocol device with two swing positions and no reported bounds. *)
Definition window_unit : AirConditionerDevice Z := {|
  op_modes := ["COOL"; "AIRCLEAN"; "FAN"];
  vert_swing_modes := ["ALL"; "OFF"];
  target_temperature_min := None;
  target_temperature_max := Some 30%Z;
  conv_temp_unit := fun t => t
|}.

(** [set_hvac_mode] of an entity over this client and Home Assistant's
    mode names. *)
Definition run_set_hvac_mode (hvac_mode_arg : string) (env : Env World)
  : Outcome DevExn unit * Env World :=
  @set_hvac_mode homeassistant.modes World DevExn api_state device_run
                 hvac_mode_arg env.

End Simulated.

(** ** An obedient device client

    A client whose world is the cached state itself: every call returns and
    the cached state shows its effect at once. *)

Module Ideal.

Definition World : Type := ACState.

Definition DevExn : Type := Empty_set.

Definition api_state (w : World) : ACState := w.

Definition device_run (c : DeviceCall) (w : World) : option DevExn * World :=
  (None, Simulated.obey c w).

(** An appliance running in cooling mode. *)
Definition cooling : Env World := {|
  world := {| is_on := true; operation_mode := Some "COOL" |};
  issued := []
|}.

(** A switched-off appliance. *)
Definition standby : Env World := {|
  world := {| is_on := false; operation_mode := Some "COOL" |};
  issued := []
|}.

Definition run_set_hvac_mode (hvac_mode_arg : string) (env : Env World)
  : Outcome DevExn unit * Env World :=
  @set_hvac_mode homeassistant.modes World DevExn api_state device_run
                 hvac_mode_arg env.

End Ideal.

(** A device client is obedient when none of its calls raises and the cached
    state after a call is the cached state before it with the power flag or
    the operation mode replaced as the call says. *)
Definition obedient {World DevExn : Type}
    (api_state : World -> ACState)
    (device_run : DeviceCall -> World -> option DevExn * World) : Prop :=
  forall c w,
    fst (device_run c w) = None
    /\ api_state (snd (device_run c w)) = Simulated.obey c (api_state w).

Section Paths.

Context {modes : HvacModes}.
Variables World DevExn : Type.
Variable api_state : World -> ACState.
Variable device_run : DeviceCall -> World -> option DevExn * World.

(** The five ways a run of [set_hvac_mode] can go. *)
Inductive Path (hvac_mode_arg : string) (env : Env World)
  : Outcome DevExn unit * Env World -> Prop :=
| path_off :
    hvac_mode_arg = HVAC_MODE_OFF ->
    Path hvac_mode_arg env (call device_run (power false) env)
| path_invalid :
    hvac_mode_arg <> HVAC_MODE_OFF ->
    PyDict.get HVAC_MODE_REVERSE_LOOKUP hvac_mode_arg = None ->
    Path hvac_mode_arg env
         (Raised (ValueError ("Invalid hvac_mode [" ++ hvac_mode_arg ++ "]")%string),
          env)
| path_from_on operation_mode' :
    hvac_mode_arg <> HVAC_MODE_OFF ->
    PyDict.get HVAC_MODE_REVERSE_LOOKUP hvac_mode_arg = Some operation_mode' ->
    hvac_mode (api_state (world env)) <> Some HVAC_MODE_OFF ->
    Path hvac_mode_arg env (call device_run (set_op_mode operation_mode') env)
| path_from_off operation_mode' :
    hvac_mode_arg <> HVAC_MODE_OFF ->
    PyDict.get HVAC_MODE_REVERSE_LOOKUP hvac_mode_arg = Some operation_mode' ->
    hvac_mode (api_state (world env)) = Some HVAC_MODE_OFF ->
    Path hvac_mode_arg env
         (bind (call device_run (power true))
               (fun _ => call device_run (set_op_mode operation_mode')) env).

End Paths.

Arguments Path {modes World DevExn} api_state device_run hvac_mode_arg env _.

(** ** The entity objects and [async_setup_entry] *)

(** [KeyError] of a subscript whose key is missing. *)
Inductive SetupExc : Type :=
| KeyError (key : string).

(** The attributes [LGEClimate.__init__] and [LGEACClimate.__init__] store. *)
Record ClimateEntity (LGEDevice ProtocolDevice : Type) : Type := {
  _api : LGEDevice;
  _name : string;
  _device : ProtocolDevice
}.

Arguments _api {LGEDevice ProtocolDevice} _.
Arguments _name {LGEDevice ProtocolDevice} _.
Arguments _device {LGEDevice ProtocolDevice} _.

(** [not d] for the result of a [dict.get] whose values are dictionaries:
    [None] and the empty dictionary are false. *)
Definition py_not_dict {A : Type} (d : option (list A)) : bool :=
  match d with
  | None => true
  | Some [] => true
  | Some (_ :: _) => false
  end.

Section Setup.

(** [wideq.DeviceType], the device handle [LGEDevice] and the protocol
    device behind it. *)
Variables DeviceType LGEDevice ProtocolDevice : Type.
Variable DeviceType_eq_dec : forall a b : DeviceType, {a = b} + {a <> b}.

(** [from . import CLIMATE_DEVICE_TYPES] and
    [from .const import DOMAIN, LGE_DEVICES] *)
Variable CLIMATE_DEVICE_TYPES : list DeviceType.
Variables DOMAIN LGE_DEVICES : string.

(** The attributes [device], [name] and [unique_id] of a device handle. *)
Variable device : LGEDevice -> ProtocolDevice.
Variable name : LGEDevice -> string.
Variable api_unique_id : LGEDevice -> string.

(** The registry [lge_devices], a dictionary from device type to the list
    of handles of that type, as its [items()]. *)
Definition Registry : Type := list (DeviceType * list LGEDevice).

(** [LGEACClimate(lge_device, ac_device)] *)
Definition LGEACClimate_init (lge_device : LGEDevice) (ac_device : ProtocolDevice)
  : ClimateEntity LGEDevice ProtocolDevice :=
  {| _api := lge_device; _name := name lge_device; _device := ac_device |}.

(** [LGEACClimate.unique_id] *)
Definition unique_id (self : ClimateEntity LGEDevice ProtocolDevice) : string :=
  (api_unique_id (_api self) ++ "-AC")%string.

(** [dev_type in CLIMATE_DEVICE_TYPES] *)
Definition is_climate_type (dev_type : DeviceType) : bool :=
  if in_dec DeviceType_eq_dec dev_type CLIMATE_DEVICE_TYPES then true else false.

(** The loop that collects the handles of the climate types. *)
Definition collect_climate_devices (lge_devices : Registry) : list LGEDevice :=
  fold_left
    (fun climate_devices item =>
       let '(dev_type, devices) := item in
       if is_climate_type dev_type
       then climate_devices ++ devices
       else climate_devices)
    lge_devices [].

(** [async_setup_entry(hass, entry, async_add_entities)] on [hass.data]:
    the exception raised, if any, and the argument of each call made to
    [async_add_entities]. *)
Definition async_setup_entry (hass_data : PyDict.t (PyDict.t Registry))
  : option SetupExc * list (list (ClimateEntity LGEDevice ProtocolDevice)) :=
  match PyDict.get hass_data DOMAIN with
  | None => (Some (KeyError DOMAIN), [])
  | Some entry_config =>
      let lge_devices := PyDict.get entry_config LGE_DEVICES in
      if py_not_dict lge_devices then (None, [])
      else
        let climate_devices :=
          collect_climate_devices
            (match lge_devices with Some registry => registry | None => [] end) in
        let lge_climates :=
          [] ++ map (fun lge_device =>
                       LGEACClimate_init lge_device (device lge_device))
                    climate_devices in
        (None, [lge_climates])
  end.

End Setup.

Arguments LGEACClimate_init {LGEDevice ProtocolDevice} name lge_device ac_device.
Arguments unique_id {LGEDevice ProtocolDevice} api_unique_id self.
Arguments is_climate_type {DeviceType} DeviceType_eq_dec CLIMATE_DEVICE_TYPES dev_type.
Arguments collect_climate_devices {DeviceType LGEDevice}
  DeviceType_eq_dec CLIMATE_DEVICE_TYPES lge_devices.
Arguments async_setup_entry {DeviceType LGEDevice ProtocolDevice}
  DeviceType_eq_dec CLIMATE_DEVICE_TYPES DOMAIN LGE_DEVICES device name hass_data.

(** ** [set_temperature] *)

(** The call [set_temperature] issues to the protocol device. *)
Inductive TemperatureCall (PyVal : Type) : Type :=
| set_target_temp (temperature : PyVal).

Arguments set_target_temp {PyVal} temperature.

(** [set_temperature] on its keyword arguments, given the value of the
    [target_temperature] property: the one call it issues. *)
Definition set_temperature {PyVal : Type}
    (kwargs : PyDict.t PyVal) (target_temperature : PyVal)
  : TemperatureCall PyVal :=
  set_target_temp
    (match PyDict.get kwargs "temperature" with
     | Some temperature => temperature
     | None => target_temperature
     end).

(** ** A small installation *)

Module Home.

Inductive DeviceType : Type := AC | WASHER | FRIDGE.

Definition DeviceType_eq_dec (a b : DeviceType) : {a = b} + {a <> b}.
Proof. decide equality. Defined.

(** A device handle is known by its unique id. *)
Definition LGEDevice : Type := string.

Definition registry : Registry DeviceType LGEDevice :=
  [ (WASHER, ["washer-1"]); (AC, ["ac-1"; "ac-2"]); (FRIDGE, []) ].

Definition laundry : Registry DeviceType LGEDevice :=
  [ (WASHER, ["washer-1"]) ].

Definition hass_data (r : Registry DeviceType LGEDevice)
  : PyDict.t (PyDict.t (Registry DeviceType LGEDevice)) :=
  [ ("smartthinq_sensors", [ ("lge_devices", r) ]) ].

Definition setup (data : PyDict.t (PyDict.t (Registry DeviceType LGEDevice)))
  : option SetupExc * list (list (ClimateEntity LGEDevice LGEDevice)) :=
  async_setup_entry DeviceType_eq_dec [AC] "smartthinq_sensors" "lge_devices"
                    (fun d => d) (fun d => d) data.

End Home.

(** * Properties *)

(** ** Dictionary facts *)

Module PyDictFacts.

Import PyDict.

Section Facts.

Context {V : Type}.
Implicit Types (d : t V) (kvs : list (string * V)) (k : string) (v : V).

Lemma get_set d k v k' :
  get (set d k v) k' = if String.eqb k k' then Some v else get d k'.
Proof.
  induction d as [|[k0 v0] d IH]; simpl.
  - reflexivity.
  - destruct (String.eqb_spec k0 k) as [->|Hk0]; simpl.
    + destruct (String.eqb k k'); reflexivity.
    + rewrite IH.
      destruct (String.eqb_spec k0 k') as [->|Hk0'].
      * destruct (String.eqb_spec k k'); congruence.
      * reflexivity.
Qed.

Lemma get_app d1 d2 k :
  get (d1 ++ d2)%list k =
  match get d1 k with
  | Some v => Some v
  | None => get d2 k
  end.
Proof.
  induction d1 as [|[k0 v0] d1 IH]; simpl.
  - reflexivity.
  - destruct (String.eqb k0 k); [reflexivity | exact IH].
Qed.

(** Assigning a list of pairs: the last assignment to a key wins, and
    keys never assigned keep their value. *)
Lemma get_fold_set kvs d k :
  get (fold_left (fun d kv => set d (fst kv) (snd kv)) kvs d) k =
  match get (rev kvs) k with
  | Some v => Some v
  | None => get d k
  end.
Proof.
  revert d.
  induction kvs as [|[k0 v0] kvs IH]; intros d; simpl.
  - reflexivity.
  - rewrite IH, get_app, get_set; simpl.
    destruct (get (rev kvs) k); [reflexivity|].
    destruct (String.eqb k0 k); reflexivity.
Qed.

Lemma get_of_pairs kvs k : get (of_pairs kvs) k = get (rev kvs) k.
Proof.
  unfold of_pairs.
  rewrite get_fold_set.
  destruct (get (rev kvs) k); reflexivity.
Qed.

Lemma get_Some_In d k v : get d k = Some v -> In (k, v) d.
Proof.
  induction d as [|[k0 v0] d IH]; simpl; [discriminate|].
  destruct (String.eqb_spec k0 k) as [->|Hk0]; intros H.
  - injection H as ->. now left.
  - right. auto.
Qed.

Lemma get_None_not_key d k : get d k = None <-> ~ In k (keys d).
Proof.
  unfold keys.
  induction d as [|[k0 v0] d IH]; simpl.
  - tauto.
  - destruct (String.eqb_spec k0 k) as [->|Hk0].
    + split; [discriminate | tauto].
    + rewrite IH. tauto.
Qed.

Lemma In_get d k v : NoDup (keys d) -> In (k, v) d -> get d k = Some v.
Proof.
  unfold keys.
  induction d as [|[k0 v0] d IH]; simpl; [tauto|].
  intros Hnd [Heq|Hin].
  - injection Heq as -> ->. now rewrite String.eqb_refl.
  - inversion Hnd as [|? ? Hnotin Hnd']; subst.
    destruct (String.eqb_spec k0 k) as [->|Hk0].
    + exfalso. apply Hnotin.
      change k with (fst (k, v)). now apply in_map.
    + auto.
Qed.

Lemma contains_true d k : contains d k = true <-> exists v, get d k = Some v.
Proof.
  unfold contains.
  destruct (get d k) as [v|].
  - split; [eauto | reflexivity].
  - split; [discriminate | intros [v Hv]; discriminate].
Qed.

End Facts.

Lemma In_swap (d : t string) (k v : string) :
  In (v, k) (rev (map (fun kv => (snd kv, fst kv)) d)) <-> In (k, v) d.
Proof.
  rewrite <- in_rev, in_map_iff.
  split.
  - intros [[k0 v0] [Heq Hin]]. simpl in Heq. now injection Heq as -> ->.
  - intros Hin. now exists (k, v).
Qed.

(** Whatever the inverted dictionary maps a value to is a key that the
    dictionary maps to that value. *)
Lemma get_inverted_sound (d : t string) (k v : string) :
  NoDup (keys d) ->
  get (inverted d) v = Some k -> get d k = Some v.
Proof.
  intros Hnd H.
  unfold inverted, items in H.
  rewrite get_of_pairs in H.
  apply get_Some_In in H.
  apply (proj1 (In_swap d k v)) in H.
  now apply In_get.
Qed.

(** When no two keys share a value the inverted dictionary finds the key
    of every value. *)
Lemma get_inverted_complete (d : t string) (k v : string) :
  NoDup (values d) ->
  get d k = Some v -> get (inverted d) v = Some k.
Proof.
  intros Hinj H.
  unfold inverted, items.
  rewrite get_of_pairs.
  apply In_get.
  - unfold keys. rewrite map_rev, map_map. simpl.
    now apply NoDup_rev.
  - apply (proj2 (In_swap d k v)). now apply get_Some_In.
Qed.

(** Every value of the dictionary is a key of the inverted one. *)
Lemma get_inverted_value (d : t string) (v : string) :
  In v (values d) -> exists k, get (inverted d) v = Some k.
Proof.
  intros Hin.
  destruct (get (inverted d) v) as [k|] eqn:E; [eauto|].
  exfalso.
  unfold inverted, items in E.
  rewrite get_of_pairs in E.
  apply get_None_not_key in E. apply E.
  unfold keys. rewrite map_rev, map_map. simpl.
  now apply in_rev in Hin.
Qed.

End PyDictFacts.

(** ** The translation tables *)

Section TableFacts.

Context {modes : HvacModes}.

(** The display has six distinct keys, so it holds its six pairs in the
    order written. *)
Lemma HVAC_MODE_LOOKUP_items :
  PyDict.items HVAC_MODE_LOOKUP =
  [ ("AI", HVAC_MODE_AUTO); ("HEAT", HVAC_MODE_HEAT); ("DRY", HVAC_MODE_DRY);
    ("COOL", HVAC_MODE_COOL); ("FAN", HVAC_MODE_FAN_ONLY);
    ("ACO", HVAC_MODE_HEAT_COOL) ].
Proof. reflexivity. Qed.

Lemma HVAC_MODE_LOOKUP_keys : NoDup (PyDict.keys HVAC_MODE_LOOKUP).
Proof.
  change (PyDict.keys HVAC_MODE_LOOKUP)
    with ["AI"; "HEAT"; "DRY"; "COOL"; "FAN"; "ACO"].
  repeat constructor; simpl; intuition discriminate.
Qed.

Lemma HVAC_MODE_LOOKUP_values :
  PyDict.values HVAC_MODE_LOOKUP = translated_modes.
Proof. reflexivity. Qed.

Lemma reverse_then_forward (h k : string) :
  PyDict.get HVAC_MODE_REVERSE_LOOKUP h = Some k ->
  PyDict.get HVAC_MODE_LOOKUP k = Some h.
Proof.
  apply PyDictFacts.get_inverted_sound, HVAC_MODE_LOOKUP_keys.
Qed.

Lemma translated_has_counterpart (h : string) :
  In h translated_modes -> has_counterpart h.
Proof.
  intros Hin.
  rewrite <- HVAC_MODE_LOOKUP_values in Hin.
  destruct (PyDictFacts.get_inverted_value _ _ Hin) as [k Hk].
  exists k. split; [exact Hk | now apply reverse_then_forward].
Qed.

Lemma reverse_lookup_untranslated (h : string) :
  ~ In h translated_modes ->
  PyDict.get HVAC_MODE_REVERSE_LOOKUP h = None.
Proof.
  intros Hnot.
  destruct (PyDict.get HVAC_MODE_REVERSE_LOOKUP h) as [k|] eqn:E;
    [|reflexivity].
  exfalso. apply Hnot.
  apply reverse_then_forward, PyDictFacts.get_Some_In in E.
  rewrite <- HVAC_MODE_LOOKUP_values.
  unfold PyDict.values.
  change h with (snd (k, h)). now apply in_map.
Qed.

(** C4: on the translation table forward and reverse lookup are mutual
    inverses.  Every vendor key of [HVAC_MODE_LOOKUP] is found again by
    reverse lookup of its host mode, and every host key of
    [HVAC_MODE_REVERSE_LOOKUP] is found again by forward lookup of its
    vendor mode.  The six host modes named by the table are distinct
    strings. *)
Theorem lookup_reverse_lookup_inverse :
  NoDup translated_modes ->
  (forall k h,
      PyDict.get HVAC_MODE_LOOKUP k = Some h ->
      PyDict.get HVAC_MODE_REVERSE_LOOKUP h = Some k)
  /\ (forall h k,
      PyDict.get HVAC_MODE_REVERSE_LOOKUP h = Some k ->
      PyDict.get HVAC_MODE_LOOKUP k = Some h).
Proof.
  intros Hdistinct. split.
  - intros k h Hfwd.
    apply PyDictFacts.get_inverted_complete; [|exact Hfwd].
    now rewrite HVAC_MODE_LOOKUP_values.
  - intros h k. apply reverse_then_forward.
Qed.

(** C7, as amended: the table is a bidirectional mapping for the six host
    modes auto, heat, dry, cool, fan-only and heat-cool: each has a vendor
    counterpart under reverse lookup whose forward translation is the same
    host mode.  The off mode, a string different from those six, has no
    entry in the reverse table. *)
Theorem translation_covers_non_off_modes :
  ~ In HVAC_MODE_OFF translated_modes ->
  (forall h, In h translated_modes -> has_counterpart h)
  /\ PyDict.get HVAC_MODE_REVERSE_LOOKUP HVAC_MODE_OFF = None
  /\ ~ has_counterpart HVAC_MODE_OFF.
Proof.
  intros Hoff.
  pose proof (reverse_lookup_untranslated _ Hoff) as Hnone.
  split; [exact translated_has_counterpart|].
  split; [exact Hnone|].
  intros [k [Hk _]]. congruence.
Qed.

End TableFacts.

(** ** The tables with Home Assistant's mode names *)

Lemma homeassistant_translated_distinct :
  NoDup (@translated_modes homeassistant.modes).
Proof.
  repeat constructor; simpl; intuition discriminate.
Qed.

Lemma homeassistant_off_untranslated :
  ~ In (@HVAC_MODE_OFF homeassistant.modes) (@translated_modes homeassistant.modes).
Proof.
  simpl; intuition discriminate.
Qed.

Lemma lookup_reverse_lookup_inverse_witness :
  NoDup (@translated_modes homeassistant.modes)
  /\ PyDict.get (@HVAC_MODE_REVERSE_LOOKUP homeassistant.modes) "cool" = Some "COOL"
  /\ PyDict.get (@HVAC_MODE_LOOKUP homeassistant.modes) "ACO" = Some "heat_cool".
Proof.
  pose proof (@lookup_reverse_lookup_inverse homeassistant.modes
                homeassistant_translated_distinct) as [Hfwd Hrev].
  split; [exact homeassistant_translated_distinct|].
  split.
  - apply Hfwd. reflexivity.
  - apply Hrev. reflexivity.
Defined.

Lemma translation_covers_non_off_modes_witness :
  ~ In (@HVAC_MODE_OFF homeassistant.modes) (@translated_modes homeassistant.modes)
  /\ @has_counterpart homeassistant.modes "fan_only"
  /\ PyDict.get (@HVAC_MODE_REVERSE_LOOKUP homeassistant.modes) "off" = None.
Proof.
  pose proof (@translation_covers_non_off_modes homeassistant.modes
                homeassistant_off_untranslated) as [Hsix [Hoff _]].
  split; [exact homeassistant_off_untranslated|].
  split.
  - apply Hsix. simpl. tauto.
  - exact Hoff.
Defined.

(** C7, as stated, fails: with Home Assistant's mode names the off mode of
    the vocabulary has no vendor counterpart under reverse lookup. *)
Lemma vocabulary_not_covered :
  ~ (forall h, In h (@hvac_vocabulary homeassistant.modes) ->
               @has_counterpart homeassistant.modes h).
Proof.
  intros Hall.
  destruct (Hall "off") as [k [Hk _]].
  - simpl. now left.
  - vm_compute in Hk. discriminate.
Qed.

(** ** Read-only properties of the entity *)

Section PropertyFacts.

Context {modes : HvacModes} {flags : ClimateFeatures}.
Context {Temp : Type} {temps : DefaultTemps Temp}.

Lemma has_flag_lor_l (a b : Z) : has_flag (Z.lor a b) a.
Proof.
  unfold has_flag. apply Z.bits_inj'. intros n Hn.
  rewrite Z.land_spec, Z.lor_spec.
  destruct (Z.testbit a n); [reflexivity | apply andb_false_r].
Qed.

Lemma has_flag_lor_r (a b : Z) : has_flag (Z.lor a b) b.
Proof. rewrite Z.lor_comm. apply has_flag_lor_l. Qed.

Lemma has_flag_lor_mono (m a f : Z) : has_flag m f -> has_flag (Z.lor m a) f.
Proof.
  unfold has_flag. intros H.
  rewrite Z.land_lor_distr_l, H.
  apply Z.bits_inj'. intros n Hn.
  rewrite Z.lor_spec, Z.land_spec.
  destruct (Z.testbit f n); [reflexivity | apply andb_false_r].
Qed.

(** C9: the getter is a total function of the cached state.  It is the off
    mode when the device is not on or has no operation mode, and it is
    [None] when the device is on in an operation mode that has no entry in
    the forward table; otherwise it is that entry. *)
Theorem hvac_mode_total (state : ACState) :
  (is_on state = false \/ operation_mode state = None ->
   hvac_mode state = Some HVAC_MODE_OFF)
  /\ (forall mode,
         is_on state = true -> operation_mode state = Some mode ->
         hvac_mode state = PyDict.get HVAC_MODE_LOOKUP mode)
  /\ (forall mode,
         is_on state = true -> operation_mode state = Some mode ->
         PyDict.get HVAC_MODE_LOOKUP mode = None ->
         hvac_mode state = None).
Proof.
  unfold hvac_mode.
  destruct state as [on [mode|]]; simpl.
  - split; [|split].
    + intros [-> | H]; [reflexivity | discriminate].
    + intros mode' -> H. now injection H as ->.
    + intros mode' -> H Hnone. injection H as ->. exact Hnone.
  - rewrite orb_true_r.
    split; [|split]; [reflexivity | discriminate | discriminate].
Qed.

(** C10: the list of modes starts with the off mode, and each later
    element is the forward translation, never [None], of an operation mode
    the device reports and the table translates. *)
Theorem hvac_modes_off_then_translations (device : AirConditionerDevice Temp) :
  exists rest,
    hvac_modes device = Some HVAC_MODE_OFF :: rest
    /\ Forall (fun x => exists mode h,
                   x = Some h
                   /\ In mode (op_modes device)
                   /\ PyDict.get HVAC_MODE_LOOKUP mode = Some h) rest.
Proof.
  unfold hvac_modes. simpl.
  eexists. split; [reflexivity|].
  apply Forall_forall. intros x Hx.
  apply in_map_iff in Hx as [mode [<- Hmode]].
  apply filter_In in Hmode as [Hin Hc].
  apply PyDictFacts.contains_true in Hc as [h Hh].
  exists mode, h. auto.
Qed.

(** C6: the feature mask always includes the fan-mode and the
    target-temperature flag, and it includes the swing-mode flag exactly
    when the device reports more than one vertical swing mode.  The swing
    flag has a bit that the other two flags leave clear. *)
Theorem supported_features_flags (device : AirConditionerDevice Temp) :
  ~ has_flag (Z.lor SUPPORT_FAN_MODE SUPPORT_TARGET_TEMPERATURE)
             SUPPORT_SWING_MODE ->
  has_flag (supported_features device) SUPPORT_FAN_MODE
  /\ has_flag (supported_features device) SUPPORT_TARGET_TEMPERATURE
  /\ (has_flag (supported_features device) SUPPORT_SWING_MODE
      <-> 1 < length (vert_swing_modes device)).
Proof.
  intros Hindep.
  unfold supported_features.
  destruct (Nat.ltb_spec 1 (length (vert_swing_modes device))) as [Hlt|Hge].
  - split; [|split].
    + apply has_flag_lor_mono, has_flag_lor_l.
    + apply has_flag_lor_mono, has_flag_lor_r.
    + split; [intros _; exact Hlt | intros _; apply has_flag_lor_r].
  - split; [|split].
    + apply has_flag_lor_l.
    + apply has_flag_lor_r.
    + split; [intros H; contradiction | lia].
Qed.

(** C5: [min_temp] is the minimum the device reports whenever there is
    one, and the converted default minimum when there is none; [max_temp]
    likewise with the reported maximum and the converted default maximum.
    So a value other than the reported bound is returned only when that
    bound is absent. *)
Theorem temp_bounds_fall_back (device : AirConditionerDevice Temp) :
  (forall t, target_temperature_min device = Some t -> min_temp device = t)
  /\ (target_temperature_min device = None ->
      min_temp device = conv_temp_unit device DEFAULT_MIN_TEMP)
  /\ (forall t, target_temperature_max device = Some t -> max_temp device = t)
  /\ (target_temperature_max device = None ->
      max_temp device = conv_temp_unit device DEFAULT_MAX_TEMP)
  /\ (target_temperature_min device <> Some (min_temp device) ->
      target_temperature_min device = None)
  /\ (target_temperature_max device <> Some (max_temp device) ->
      target_temperature_max device = None).
Proof.
  unfold min_temp, max_temp.
  destruct (target_temperature_min device) as [lo|];
    destruct (target_temperature_max device) as [hi|];
    repeat split; intros; congruence.
Qed.

End PropertyFacts.

(** ** [set_hvac_mode] *)

Section MethodFacts.

Context {modes : HvacModes}.
Variables World DevExn : Type.
Variable api_state : World -> ACState.
Variable device_run : DeviceCall -> World -> option DevExn * World.

(** One device call, spelled out. *)
Lemma call_run (c : DeviceCall) (env : Env World) :
  call device_run c env =
  (match fst (device_run c (world env)) with
   | None => Returned tt
   | Some e => Raised (DeviceError e)
   end,
   {| world := snd (device_run c (world env));
      issued := issued env ++ [c] |}).
Proof.
  unfold call.
  destruct (device_run c (world env)) as [[e|] w]; reflexivity.
Qed.

Lemma set_hvac_mode_unrecognized (hvac_mode_arg : string) (env : Env World) :
  hvac_mode_arg <> HVAC_MODE_OFF ->
  PyDict.get HVAC_MODE_REVERSE_LOOKUP hvac_mode_arg = None ->
  set_hvac_mode api_state device_run hvac_mode_arg env =
  (Raised (ValueError ("Invalid hvac_mode [" ++ hvac_mode_arg ++ "]")%string), env).
Proof.
  intros Hoff Hnone.
  unfold set_hvac_mode.
  apply String.eqb_neq in Hoff. rewrite Hoff, Hnone.
  reflexivity.
Qed.

(** C1: a mode that is not the off mode and has no entry in the reverse
    table makes [set_hvac_mode] raise a [ValueError], and the message of
    the error, [Invalid hvac_mode [...]], names the mode given. *)
Theorem set_hvac_mode_invalid_raises (hvac_mode_arg : string) (env : Env World) :
  hvac_mode_arg <> HVAC_MODE_OFF ->
  PyDict.get HVAC_MODE_REVERSE_LOOKUP hvac_mode_arg = None ->
  exists msg,
    fst (set_hvac_mode api_state device_run hvac_mode_arg env) = Raised (ValueError msg)
    /\ msg = ("Invalid hvac_mode [" ++ hvac_mode_arg ++ "]")%string
    /\ names msg hvac_mode_arg.
Proof.
  intros Hoff Hnone.
  rewrite (set_hvac_mode_unrecognized _ env Hoff Hnone). simpl.
  eexists. split; [reflexivity|]. split; [reflexivity|].
  now exists "Invalid hvac_mode [", "]".
Qed.

(** C8: when [set_hvac_mode] raises the [ValueError] for an unrecognized
    mode other than off, it has issued no call to the protocol device and
    the state of the device client is the one it started from. *)
Theorem set_hvac_mode_invalid_no_call (hvac_mode_arg : string) (env : Env World) :
  hvac_mode_arg <> HVAC_MODE_OFF ->
  PyDict.get HVAC_MODE_REVERSE_LOOKUP hvac_mode_arg = None ->
  (exists msg, fst (set_hvac_mode api_state device_run hvac_mode_arg env) = Raised (ValueError msg))
  /\ issued (snd (set_hvac_mode api_state device_run hvac_mode_arg env)) = issued env
  /\ world (snd (set_hvac_mode api_state device_run hvac_mode_arg env)) = world env.
Proof.
  intros Hoff Hnone.
  rewrite (set_hvac_mode_unrecognized _ env Hoff Hnone). simpl.
  eauto.
Qed.

(** C2: with the off mode [set_hvac_mode] issues exactly one call,
    [power(False)], whatever the state; no [set_op_mode] call is among
    the calls it issues. *)
Theorem set_hvac_mode_off_powers_off (env : Env World) :
  issued (snd (set_hvac_mode api_state device_run HVAC_MODE_OFF env)) = issued env ++ [power false]
  /\ world (snd (set_hvac_mode api_state device_run HVAC_MODE_OFF env))
     = snd (device_run (power false) (world env))
  /\ forall later mode,
       issued (snd (set_hvac_mode api_state device_run HVAC_MODE_OFF env)) = issued env ++ later ->
       ~ In (set_op_mode mode) later.
Proof.
  unfold set_hvac_mode.
  rewrite String.eqb_refl, call_run. simpl.
  split; [reflexivity|]. split; [reflexivity|].
  intros later mode Heq.
  apply app_inv_head in Heq. subst later.
  simpl. intuition discriminate.
Qed.

Lemma set_hvac_mode_from_off
    (hvac_mode_arg operation_mode' : string) (env : Env World) :
  hvac_mode_arg <> HVAC_MODE_OFF ->
  PyDict.get HVAC_MODE_REVERSE_LOOKUP hvac_mode_arg = Some operation_mode' ->
  hvac_mode (api_state (world env)) = Some HVAC_MODE_OFF ->
  set_hvac_mode api_state device_run hvac_mode_arg env =
  bind (call device_run (power true))
       (fun _ => call device_run (set_op_mode operation_mode')) env.
Proof.
  intros Hoff Hop Hcur.
  unfold set_hvac_mode.
  apply String.eqb_neq in Hoff. rewrite Hoff, Hop.
  unfold bind at 1. unfold read. rewrite Hcur.
  unfold py_eq_str. rewrite String.eqb_refl.
  reflexivity.
Qed.

(** C3: for a recognized mode other than off, when the entity's current
    mode is off, the first call [set_hvac_mode] issues is [power(True)];
    [set_op_mode] with the vendor mode is the next and last call when the
    power call returns, and is not issued when the power call raises, in
    which case the device's exception propagates. *)
Theorem set_hvac_mode_powers_on_first
    (hvac_mode_arg operation_mode' : string) (env : Env World) :
  hvac_mode_arg <> HVAC_MODE_OFF ->
  PyDict.get HVAC_MODE_REVERSE_LOOKUP hvac_mode_arg = Some operation_mode' ->
  hvac_mode (api_state (world env)) = Some HVAC_MODE_OFF ->
  exists later,
    issued (snd (set_hvac_mode api_state device_run hvac_mode_arg env))
    = issued env ++ power true :: later
    /\ (fst (device_run (power true) (world env)) = None ->
        later = [set_op_mode operation_mode'])
    /\ (forall e,
           fst (device_run (power true) (world env)) = Some e ->
           later = []
           /\ fst (set_hvac_mode api_state device_run hvac_mode_arg env) = Raised (DeviceError e)).
Proof.
  intros Hoff Hop Hcur.
  rewrite (set_hvac_mode_from_off _ _ env Hoff Hop Hcur).
  unfold bind. rewrite call_run.
  destruct (fst (device_run (power true) (world env))) as [e|] eqn:Hpower.
  - exists []. simpl.
    split; [reflexivity|]. split; [discriminate|].
    intros e' He'. injection He' as <-. auto.
  - rewrite call_run. simpl.
    exists [set_op_mode operation_mode'].
    rewrite <- app_assoc. simpl.
    split; [reflexivity|]. split; [reflexivity | discriminate].
Qed.

End MethodFacts.

(** ** The entity over the simulated client *)

Lemma hvac_mode_total_witness :
  (is_on (Simulated.state (world Simulated.idle)) = false
   \/ operation_mode (Simulated.state (world Simulated.idle)) = None)
  /\ @hvac_mode homeassistant.modes (Simulated.state (world Simulated.idle))
     = Some "off"
  /\ PyDict.get (@HVAC_MODE_LOOKUP homeassistant.modes) "AIRCLEAN" = None
  /\ @hvac_mode homeassistant.modes Simulated.purifying = None.
Proof.
  split; [left; reflexivity|].
  split; [|split; [reflexivity|]].
  - apply (@hvac_mode_total homeassistant.modes
             (Simulated.state (world Simulated.idle))).
    left. reflexivity.
  - apply (proj2 (proj2 (@hvac_mode_total homeassistant.modes
                           Simulated.purifying)) "AIRCLEAN");
      reflexivity.
Defined.

Lemma supported_features_flags_witness :
  ~ @has_flag (Z.lor (@SUPPORT_FAN_MODE homeassistant.features)
                     (@SUPPORT_TARGET_TEMPERATURE homeassistant.features))
              (@SUPPORT_SWING_MODE homeassistant.features)
  /\ @supported_features homeassistant.features Z Simulated.window_unit = 41%Z
  /\ @has_flag (@supported_features homeassistant.features Z Simulated.window_unit)
               (@SUPPORT_SWING_MODE homeassistant.features).
Proof.
  assert (Hindep :
    ~ @has_flag (Z.lor (@SUPPORT_FAN_MODE homeassistant.features)
                       (@SUPPORT_TARGET_TEMPERATURE homeassistant.features))
                (@SUPPORT_SWING_MODE homeassistant.features))
    by (unfold has_flag; simpl; discriminate).
  split; [exact Hindep|].
  split; [reflexivity|].
  apply (@supported_features_flags homeassistant.features Z
           Simulated.window_unit Hindep).
  simpl. lia.
Defined.

Lemma temp_bounds_fall_back_witness :
  target_temperature_min Simulated.window_unit = None
  /\ target_temperature_max Simulated.window_unit = Some 30%Z
  /\ @min_temp Z homeassistant.temps Simulated.window_unit = 7%Z
  /\ @max_temp Z homeassistant.temps Simulated.window_unit = 30%Z.
Proof.
  pose proof (@temp_bounds_fall_back Z homeassistant.temps
                Simulated.window_unit) as [_ [Hmin [Hmax _]]].
  split; [reflexivity|]. split; [reflexivity|].
  split.
  - apply Hmin. reflexivity.
  - apply Hmax. reflexivity.
Defined.

Lemma set_hvac_mode_invalid_raises_witness :
  "turbo" <> @HVAC_MODE_OFF homeassistant.modes
  /\ PyDict.get (@HVAC_MODE_REVERSE_LOOKUP homeassistant.modes) "turbo" = None
  /\ exists msg,
       fst (Simulated.run_set_hvac_mode "turbo" Simulated.idle)
       = Raised (ValueError msg)
       /\ msg = "Invalid hvac_mode [turbo]"
       /\ names msg "turbo".
Proof.
  assert (Hoff : "turbo" <> @HVAC_MODE_OFF homeassistant.modes)
    by (simpl; discriminate).
  split; [exact Hoff|]. split; [reflexivity|].
  apply (@set_hvac_mode_invalid_raises homeassistant.modes
           Simulated.World Simulated.DevExn
           Simulated.api_state Simulated.device_run
           "turbo" Simulated.idle Hoff).
  reflexivity.
Defined.

Lemma set_hvac_mode_invalid_no_call_witness :
  "turbo" <> @HVAC_MODE_OFF homeassistant.modes
  /\ PyDict.get (@HVAC_MODE_REVERSE_LOOKUP homeassistant.modes) "turbo" = None
  /\ issued (snd (Simulated.run_set_hvac_mode "turbo" Simulated.idle)) = []
  /\ world (snd (Simulated.run_set_hvac_mode "turbo" Simulated.idle))
     = world Simulated.idle.
Proof.
  assert (Hoff : "turbo" <> @HVAC_MODE_OFF homeassistant.modes)
    by (simpl; discriminate).
  split; [exact Hoff|]. split; [reflexivity|].
  apply (@set_hvac_mode_invalid_no_call homeassistant.modes
           Simulated.World Simulated.DevExn
           Simulated.api_state Simulated.device_run
           "turbo" Simulated.idle Hoff).
  reflexivity.
Defined.

Lemma set_hvac_mode_off_powers_off_witness :
  issued (snd (Simulated.run_set_hvac_mode "off" Simulated.idle))
  = [power false]
  /\ ~ In (set_op_mode "COOL") [power false].
Proof.
  pose proof (@set_hvac_mode_off_powers_off homeassistant.modes
                Simulated.World Simulated.DevExn
                Simulated.api_state Simulated.device_run
                Simulated.idle) as [Hissued [_ Hnever]].
  split; [exact Hissued|].
  apply Hnever. exact Hissued.
Defined.

Lemma set_hvac_mode_powers_on_first_witness :
  "heat" <> @HVAC_MODE_OFF homeassistant.modes
  /\ PyDict.get (@HVAC_MODE_REVERSE_LOOKUP homeassistant.modes) "heat"
     = Some "HEAT"
  /\ @hvac_mode homeassistant.modes (Simulated.api_state (world Simulated.idle))
     = Some "off"
  /\ exists later,
       issued (snd (Simulated.run_set_hvac_mode "heat" Simulated.idle))
       = [] ++ power true :: later
       /\ (fst (Simulated.device_run (power true) (world Simulated.idle)) = None ->
           later = [set_op_mode "HEAT"])
       /\ (forall e,
              fst (Simulated.device_run (power true) (world Simulated.idle))
              = Some e ->
              later = []
              /\ fst (Simulated.run_set_hvac_mode "heat" Simulated.idle)
                 = Raised (DeviceError e)).
Proof.
  assert (Hoff : "heat" <> @HVAC_MODE_OFF homeassistant.modes)
    by (simpl; discriminate).
  split; [exact Hoff|]. split; [reflexivity|]. split; [reflexivity|].
  apply (@set_hvac_mode_powers_on_first homeassistant.modes
           Simulated.World Simulated.DevExn
           Simulated.api_state Simulated.device_run
           "heat" "HEAT" Simulated.idle Hoff);
    reflexivity.
Defined.

(** The two outcomes of switching on from off, run on the simulated client:
    an answering appliance receives both calls in order, a silent one only
    the power call. *)
Example switch_on_reachable :
  Simulated.run_set_hvac_mode "heat" Simulated.idle
  = (Returned tt,
     {| world := {| Simulated.state :=
                      {| is_on := true; operation_mode := Some "HEAT" |};
                    Simulated.reachable := true |};
        issued := [power true; set_op_mode "HEAT"] |}).
Proof. reflexivity. Qed.

Example switch_on_unreachable :
  Simulated.run_set_hvac_mode "heat" Simulated.lost
  = (Raised (DeviceError "device unreachable"),
     {| world := world Simulated.lost; issued := [power true] |}).
Proof. reflexivity. Qed.

Example hvac_modes_window_unit :
  @hvac_modes homeassistant.modes Z Simulated.window_unit
  = [Some "off"; Some "cool"; Some "fan_only"].
Proof. reflexivity. Qed.

(** * Further properties of the module *)

(** ** [set_hvac_mode] on every path *)

Section MethodPaths.

Context {modes : HvacModes}.
Variables World DevExn : Type.
Variable api_state : World -> ACState.
Variable device_run : DeviceCall -> World -> option DevExn * World.

Lemma py_eq_str_false (current : option string) (s : string) :
  current <> Some s -> py_eq_str current s = false.
Proof.
  destruct current as [x|]; simpl; [|reflexivity].
  intros Hne. apply String.eqb_neq. congruence.
Qed.

Lemma py_eq_str_true (current : option string) (s : string) :
  py_eq_str current s = true <-> current = Some s.
Proof.
  destruct current as [x|]; simpl.
  - rewrite String.eqb_eq. split; congruence.
  - split; discriminate.
Qed.

Lemma set_hvac_mode_from_on
    (hvac_mode_arg operation_mode' : string) (env : Env World) :
  hvac_mode_arg <> HVAC_MODE_OFF ->
  PyDict.get HVAC_MODE_REVERSE_LOOKUP hvac_mode_arg = Some operation_mode' ->
  hvac_mode (api_state (world env)) <> Some HVAC_MODE_OFF ->
  set_hvac_mode api_state device_run hvac_mode_arg env =
  call device_run (set_op_mode operation_mode') env.
Proof.
  intros Hoff Hop Hcur.
  unfold set_hvac_mode.
  apply String.eqb_neq in Hoff. rewrite Hoff, Hop.
  unfold bind at 1. unfold read.
  rewrite (py_eq_str_false _ _ Hcur).
  reflexivity.
Qed.

Lemma set_hvac_mode_off (env : Env World) :
  set_hvac_mode api_state device_run HVAC_MODE_OFF env =
  call device_run (power false) env.
Proof.
  unfold set_hvac_mode. now rewrite String.eqb_refl.
Qed.

Lemma set_hvac_mode_path (hvac_mode_arg : string) (env : Env World) :
  Path api_state device_run hvac_mode_arg env
       (set_hvac_mode api_state device_run hvac_mode_arg env).
Proof.
  destruct (String.eqb_spec hvac_mode_arg HVAC_MODE_OFF) as [->|Hoff].
  - rewrite set_hvac_mode_off. now constructor.
  - destruct (PyDict.get HVAC_MODE_REVERSE_LOOKUP hvac_mode_arg)
      as [operation_mode'|] eqn:Hop.
    + destruct (py_eq_str (hvac_mode (api_state (world env))) HVAC_MODE_OFF)
        eqn:Hcur.
      * apply py_eq_str_true in Hcur.
        rewrite (set_hvac_mode_from_off _ _ _ _ _ _ env Hoff Hop Hcur).
        now apply path_from_off.
      * assert (Hne : hvac_mode (api_state (world env)) <> Some HVAC_MODE_OFF).
        { intros Heq. apply py_eq_str_true in Heq. congruence. }
        rewrite (set_hvac_mode_from_on _ _ env Hoff Hop Hne).
        now apply path_from_on.
    + rewrite (set_hvac_mode_unrecognized _ _ _ _ _ env Hoff Hop).
      now apply path_invalid.
Qed.

End MethodPaths.

Section MethodBehaviour.

Context {modes : HvacModes}.
Variables World DevExn : Type.
Variable api_state : World -> ACState.
Variable device_run : DeviceCall -> World -> option DevExn * World.

(** Membership of a call in an explicit list of calls. *)
Ltac in_calls :=
  simpl; intros;
  repeat match goal with
         | H : _ \/ _ |- _ => destruct H
         | H : False |- _ => destruct H
         | H : power _ = power _ |- _ => first [discriminate H | clear H]
         | H : power _ = set_op_mode _ |- _ => discriminate H
         | H : set_op_mode _ = power _ |- _ => discriminate H
         | H : set_op_mode _ = set_op_mode _ |- _ => injection H as <-
         end;
  auto.

Lemma call_outcome (c : DeviceCall) (env : Env World) (msg : string) :
  fst (call device_run c env) <> Raised (ValueError msg).
Proof.
  rewrite call_run. simpl.
  destruct (fst (device_run c (world env))); discriminate.
Qed.

(** X1: for a recognized mode other than off, when the entity's current
    mode is not off, [set_hvac_mode] issues the single call [set_op_mode]
    with the vendor mode and no [power] call; the outcome is the outcome of
    that call. *)
Theorem set_hvac_mode_running_sets_mode_only
    (hvac_mode_arg operation_mode' : string) (env : Env World) :
  hvac_mode_arg <> HVAC_MODE_OFF ->
  PyDict.get HVAC_MODE_REVERSE_LOOKUP hvac_mode_arg = Some operation_mode' ->
  hvac_mode (api_state (world env)) <> Some HVAC_MODE_OFF ->
  issued (snd (set_hvac_mode api_state device_run hvac_mode_arg env))
  = issued env ++ [set_op_mode operation_mode']
  /\ world (snd (set_hvac_mode api_state device_run hvac_mode_arg env))
     = snd (device_run (set_op_mode operation_mode') (world env))
  /\ fst (set_hvac_mode api_state device_run hvac_mode_arg env)
     = match fst (device_run (set_op_mode operation_mode') (world env)) with
       | None => Returned tt
       | Some e => Raised (DeviceError e)
       end.
Proof.
  intros Hoff Hop Hcur.
  rewrite (set_hvac_mode_from_on _ _ _ _ _ _ env Hoff Hop Hcur), call_run.
  simpl. auto.
Qed.

(** X2: [set_hvac_mode] raises a [ValueError] only for a mode that is not
    off and has no entry in the reverse table; the message is then
    [Invalid hvac_mode [...]] with that mode, and nothing was issued or
    changed. *)
Theorem set_hvac_mode_value_error_only_if_invalid
    (hvac_mode_arg msg : string) (env : Env World) :
  fst (set_hvac_mode api_state device_run hvac_mode_arg env)
  = Raised (ValueError msg) ->
  hvac_mode_arg <> HVAC_MODE_OFF
  /\ PyDict.get HVAC_MODE_REVERSE_LOOKUP hvac_mode_arg = None
  /\ msg = ("Invalid hvac_mode [" ++ hvac_mode_arg ++ "]")%string
  /\ snd (set_hvac_mode api_state device_run hvac_mode_arg env) = env.
Proof.
  destruct (set_hvac_mode_path _ _ api_state device_run hvac_mode_arg env)
    as [Hoff | Hoff Hnone | op Hoff Hop Hcur | op Hoff Hop Hcur]; intros Hraise.
  - now apply call_outcome in Hraise.
  - simpl in Hraise. injection Hraise as <-. auto.
  - now apply call_outcome in Hraise.
  - exfalso. revert Hraise.
    unfold bind. rewrite call_run.
    destruct (fst (device_run (power true) (world env))); [discriminate|].
    apply call_outcome.
Qed.

(** X3: when no call of the device client raises, [set_hvac_mode] returns
    normally for the off mode and for every mode that has an entry in the
    reverse table. *)
Theorem set_hvac_mode_returns
    (hvac_mode_arg : string) (env : Env World) :
  (forall c w, fst (device_run c w) = None) ->
  hvac_mode_arg = HVAC_MODE_OFF
  \/ (exists operation_mode',
         PyDict.get HVAC_MODE_REVERSE_LOOKUP hvac_mode_arg = Some operation_mode') ->
  fst (set_hvac_mode api_state device_run hvac_mode_arg env) = Returned tt.
Proof.
  intros Hquiet Hknown.
  destruct (set_hvac_mode_path _ _ api_state device_run hvac_mode_arg env)
    as [Hoff | Hoff Hnone | op Hoff Hop Hcur | op Hoff Hop Hcur].
  - rewrite call_run, Hquiet. reflexivity.
  - destruct Hknown as [-> | [op Hop]]; congruence.
  - rewrite call_run, Hquiet. reflexivity.
  - unfold bind. rewrite call_run, Hquiet, call_run, Hquiet. reflexivity.
Qed.


(** X5: whatever the argument and the state, [set_hvac_mode] issues at most
    two calls.  It issues [power(False)] only for the off mode, [power(True)]
    only for another mode while the current mode is off, and [set_op_mode]
    only with the vendor mode the reverse table gives for the argument. *)
Theorem set_hvac_mode_calls_frame (hvac_mode_arg : string) (env : Env World) :
  exists new,
    issued (snd (set_hvac_mode api_state device_run hvac_mode_arg env))
    = issued env ++ new
    /\ length new <= 2
    /\ (In (power false) new -> hvac_mode_arg = HVAC_MODE_OFF)
    /\ (In (power true) new ->
        hvac_mode_arg <> HVAC_MODE_OFF
        /\ hvac_mode (api_state (world env)) = Some HVAC_MODE_OFF)
    /\ (forall mode,
           In (set_op_mode mode) new ->
           hvac_mode_arg <> HVAC_MODE_OFF
           /\ PyDict.get HVAC_MODE_REVERSE_LOOKUP hvac_mode_arg = Some mode).
Proof.
  destruct (set_hvac_mode_path _ _ api_state device_run hvac_mode_arg env)
    as [Hoff | Hoff Hnone | op Hoff Hop Hcur | op Hoff Hop Hcur].
  - rewrite call_run. exists [power false].
    split; [reflexivity|]. split; [simpl; lia|].
    repeat apply conj; in_calls.
  - exists []. simpl. rewrite app_nil_r.
    split; [reflexivity|]. split; [lia|].
    repeat apply conj; in_calls.
  - rewrite call_run. exists [set_op_mode op].
    split; [reflexivity|]. split; [simpl; lia|].
    repeat apply conj; in_calls.
  - unfold bind. rewrite call_run.
    destruct (fst (device_run (power true) (world env))).
    + exists [power true].
      split; [reflexivity|]. split; [simpl; lia|].
      repeat apply conj; in_calls.
    + rewrite call_run. exists [power true; set_op_mode op]. simpl.
      rewrite <- app_assoc. simpl.
      split; [reflexivity|]. split; [lia|].
      repeat apply conj; in_calls.
Qed.

End MethodBehaviour.

Section MethodComposition.

Context {modes : HvacModes}.
Variables World DevExn : Type.
Variable api_state : World -> ACState.
Variable device_run : DeviceCall -> World -> option DevExn * World.

Lemma hvac_mode_not_off_is_on (state : ACState) :
  hvac_mode state <> Some HVAC_MODE_OFF -> is_on state = true.
Proof.
  unfold hvac_mode.
  destruct (is_on state); simpl; [reflexivity | congruence].
Qed.

Lemma hvac_mode_running (state : ACState) (mode : string) :
  is_on state = true -> operation_mode state = Some mode ->
  hvac_mode state = PyDict.get HVAC_MODE_LOOKUP mode.
Proof.
  unfold hvac_mode. intros -> ->. reflexivity.
Qed.

(** X6: on an obedient device client setting a mode and reading it back
    agree: after [set_hvac_mode] with the off mode or with a mode that has
    an entry in the reverse table, the call has returned and the [hvac_mode]
    getter gives the mode that was set. *)
Theorem set_then_get_hvac_mode (hvac_mode_arg : string) (env : Env World) :
  obedient api_state device_run ->
  hvac_mode_arg = HVAC_MODE_OFF
  \/ (exists operation_mode',
         PyDict.get HVAC_MODE_REVERSE_LOOKUP hvac_mode_arg = Some operation_mode') ->
  fst (set_hvac_mode api_state device_run hvac_mode_arg env) = Returned tt
  /\ hvac_mode
       (api_state (world (snd (set_hvac_mode api_state device_run
                                             hvac_mode_arg env))))
     = Some hvac_mode_arg.
Proof.
  intros Hobey Hknown.
  destruct (set_hvac_mode_path _ _ api_state device_run hvac_mode_arg env)
    as [Hoff | Hoff Hnone | op Hoff Hop Hcur | op Hoff Hop Hcur].
  - rewrite call_run. simpl.
    destruct (Hobey (power false) (world env)) as [-> ->].
    split; [reflexivity|]. subst hvac_mode_arg. reflexivity.
  - destruct Hknown as [-> | [op Hop]]; congruence.
  - rewrite call_run. simpl.
    destruct (Hobey (set_op_mode op) (world env)) as [-> ->].
    split; [reflexivity|].
    rewrite (hvac_mode_running _ op).
    + now apply reverse_then_forward.
    + simpl. now apply hvac_mode_not_off_is_on.
    + reflexivity.
  - unfold bind. rewrite call_run.
    destruct (Hobey (power true) (world env)) as [-> Hon].
    rewrite call_run. simpl.
    destruct (Hobey (set_op_mode op)
                (snd (device_run (power true) (world env)))) as [-> ->].
    split; [reflexivity|].
    rewrite (hvac_mode_running _ op).
    + now apply reverse_then_forward.
    + rewrite Hon. reflexivity.
    + reflexivity.
Qed.

End MethodComposition.

(** ** The mode getter and the advertised modes *)

Section ModeFacts.

Context {modes : HvacModes}.
Context {Temp : Type}.

Lemma translated_in_vocabulary (h : string) :
  In h translated_modes -> In h hvac_vocabulary.
Proof.
  unfold translated_modes, hvac_vocabulary. simpl. tauto.
Qed.

Lemma lookup_value_translated (mode h : string) :
  PyDict.get HVAC_MODE_LOOKUP mode = Some h -> In h translated_modes.
Proof.
  intros Hget.
  apply PyDictFacts.get_Some_In in Hget.
  rewrite <- HVAC_MODE_LOOKUP_values. unfold PyDict.values.
  change h with (snd (mode, h)). now apply in_map.
Qed.

Lemma hvac_modes_members (device : AirConditionerDevice Temp) (x : option string) :
  In x (hvac_modes device) <->
  x = Some HVAC_MODE_OFF
  \/ exists mode h,
       In mode (op_modes device)
       /\ PyDict.get HVAC_MODE_LOOKUP mode = Some h
       /\ x = Some h.
Proof.
  unfold hvac_modes. cbn [app In].
  rewrite in_map_iff.
  split.
  - intros [Hoff | [mode [Hx Hf]]]; [left; congruence|].
    apply filter_In in Hf as [Hin Hc].
    apply PyDictFacts.contains_true in Hc as [h Hh].
    right. exists mode, h. repeat split; [assumption | assumption | congruence].
  - intros [-> | [mode [h [Hin [Hget ->]]]]]; [now left|].
    right. exists mode. split; [exact Hget|].
    apply filter_In. split; [exact Hin|].
    apply PyDictFacts.contains_true. eauto.
Qed.

(** X7: whatever the cached state, a mode given by the [hvac_mode] getter
    is one of the seven modes of the host vocabulary. *)
Theorem hvac_mode_in_vocabulary (state : ACState) (h : string) :
  hvac_mode state = Some h -> In h hvac_vocabulary.
Proof.
  unfold hvac_mode.
  destruct (negb (is_on state) || py_is_none (operation_mode state)).
  - intros Heq. injection Heq as <-. now left.
  - destruct (operation_mode state) as [mode|]; simpl; [|discriminate].
    intros Hget.
    now apply translated_in_vocabulary, (lookup_value_translated mode).
Qed.

(** X8: the getter gives the off mode exactly when the device is not on or
    has no operation mode; a running device in a known operation mode is
    never shown as off.  The off mode is a string different from the six
    translated modes. *)
Theorem hvac_mode_off_iff (state : ACState) :
  ~ In HVAC_MODE_OFF translated_modes ->
  (hvac_mode state = Some HVAC_MODE_OFF
   <-> is_on state = false \/ operation_mode state = None).
Proof.
  intros Hoff. unfold hvac_mode.
  destruct (is_on state); destruct (operation_mode state) as [mode|]; simpl.
  - split.
    + intros Hget. exfalso. now apply Hoff, (lookup_value_translated mode).
    + intros [H|H]; discriminate.
  - split; auto.
  - split; auto.
  - split; auto.
Qed.

(** X9: every operation mode the device reports that has an entry in the
    forward table is advertised by [hvac_modes] through its translation, and
    the list has at least one and at most one more element than the device
    reports operation modes. *)
Theorem hvac_modes_complete (device : AirConditionerDevice Temp) :
  (forall mode h,
      In mode (op_modes device) ->
      PyDict.get HVAC_MODE_LOOKUP mode = Some h ->
      In (Some h) (hvac_modes device))
  /\ 1 <= length (hvac_modes device) <= S (length (op_modes device)).
Proof.
  split.
  - intros mode h Hin Hget.
    apply hvac_modes_members. right. now exists mode, h.
  - unfold hvac_modes. cbn [app length]. rewrite length_map.
    pose proof (filter_length_le
                  (fun mode => PyDict.contains HVAC_MODE_LOOKUP mode)
                  (op_modes device)).
    lia.
Qed.

(** X10: when the device reports no operation mode twice, [hvac_modes] lists
    no mode twice.  The seven host mode names are different strings. *)
Theorem hvac_modes_NoDup (device : AirConditionerDevice Temp) :
  ~ In HVAC_MODE_OFF translated_modes ->
  NoDup translated_modes ->
  NoDup (op_modes device) ->
  NoDup (hvac_modes device).
Proof.
  intros Hoff Hdistinct Hnd.
  unfold hvac_modes. cbn [app]. constructor.
  - rewrite in_map_iff. intros [mode [Hget _]].
    now apply Hoff, (lookup_value_translated mode).
  - apply NoDup_map_NoDup_ForallPairs; [|now apply NoDup_filter].
    intros m1 m2 H1 H2 Heq.
    apply filter_In in H1 as [_ H1]. apply filter_In in H2 as [_ H2].
    apply PyDictFacts.contains_true in H1 as [h1 Hh1].
    apply PyDictFacts.contains_true in H2 as [h2 Hh2].
    assert (h1 = h2) by congruence. subst h2.
    assert (Hr1 : PyDict.get HVAC_MODE_REVERSE_LOOKUP h1 = Some m1).
    { apply PyDictFacts.get_inverted_complete; [|exact Hh1].
      now rewrite HVAC_MODE_LOOKUP_values. }
    assert (Hr2 : PyDict.get HVAC_MODE_REVERSE_LOOKUP h1 = Some m2).
    { apply PyDictFacts.get_inverted_complete; [|exact Hh2].
      now rewrite HVAC_MODE_LOOKUP_values. }
    congruence.
Qed.

(** X11: the current mode is among the advertised ones: when the cached
    operation mode, if any, is one the device reports, the [hvac_mode]
    getter gives [None] or an element of [hvac_modes]. *)
Theorem hvac_mode_advertised (state : ACState) (device : AirConditionerDevice Temp) :
  (forall mode, operation_mode state = Some mode -> In mode (op_modes device)) ->
  hvac_mode state = None \/ In (hvac_mode state) (hvac_modes device).
Proof.
  intros Hreported.
  unfold hvac_mode.
  destruct (negb (is_on state) || py_is_none (operation_mode state)).
  - right. apply hvac_modes_members. now left.
  - destruct (operation_mode state) as [mode|]; simpl; [|now left].
    destruct (PyDict.get HVAC_MODE_LOOKUP mode) as [h|] eqn:Hget; [|now left].
    right. apply hvac_modes_members. right.
    exists mode, h. auto.
Qed.

End ModeFacts.

(** ** Advertised modes can be set *)

Section AdvertisedSettable.

Context {modes : HvacModes}.
Context {Temp : Type}.
Variables World DevExn : Type.
Variable api_state : World -> ACState.
Variable device_run : DeviceCall -> World -> option DevExn * World.

(** X12: [set_hvac_mode] accepts every mode that [hvac_modes] advertises: it
    never raises the [ValueError] for one of them, whatever the state. *)
Theorem advertised_modes_settable
    (device : AirConditionerDevice Temp) (h msg : string) (env : Env World) :
  In (Some h) (hvac_modes device) ->
  fst (set_hvac_mode api_state device_run h env) <> Raised (ValueError msg).
Proof.
  intros Hadv.
  apply hvac_modes_members in Hadv as [Hoff | [mode [h' [_ [Hget Heq]]]]].
  - injection Hoff as ->.
    rewrite set_hvac_mode_off. apply call_outcome.
  - injection Heq as <-.
    destruct (PyDictFacts.get_inverted_value HVAC_MODE_LOOKUP h) as [k Hk].
    { rewrite HVAC_MODE_LOOKUP_values.
      now apply (lookup_value_translated mode). }
    destruct (set_hvac_mode_path _ _ api_state device_run h env)
      as [Hoff | Hoff Hnone | op Hoff Hop Hcur | op Hoff Hop Hcur].
    + apply call_outcome.
    + unfold HVAC_MODE_REVERSE_LOOKUP in Hnone. congruence.
    + apply call_outcome.
    + unfold bind. rewrite call_run.
      destruct (fst (device_run (power true) (world env))); [discriminate|].
      apply call_outcome.
Qed.

End AdvertisedSettable.

(** ** Feature mask *)

Section FeatureFacts.

Context {flags : ClimateFeatures}.
Context {Temp : Type}.

(** X13: the feature mask never has a bit that is in none of the fan-mode,
    target-temperature and swing-mode flags, and it depends on the device
    only through whether more than one swing mode is reported. *)
Theorem supported_features_only_known_bits (device : AirConditionerDevice Temp) :
  (forall n,
      Z.testbit (supported_features device) n = true ->
      Z.testbit SUPPORT_FAN_MODE n = true
      \/ Z.testbit SUPPORT_TARGET_TEMPERATURE n = true
      \/ Z.testbit SUPPORT_SWING_MODE n = true)
  /\ (forall device' : AirConditionerDevice Temp,
         (1 < length (vert_swing_modes device)
          <-> 1 < length (vert_swing_modes device')) ->
         supported_features device = supported_features device').
Proof.
  split.
  - intros n. unfold supported_features.
    destruct (Nat.ltb 1 (length (vert_swing_modes device)));
      rewrite ?Z.lor_spec, ?orb_true_iff; tauto.
  - intros device' Hsame. unfold supported_features.
    destruct (Nat.ltb_spec 1 (length (vert_swing_modes device)));
      destruct (Nat.ltb_spec 1 (length (vert_swing_modes device')));
      try reflexivity; exfalso; lia.
Qed.

End FeatureFacts.

(** ** Entities and set-up *)

Section SetupFacts.

Variables DeviceType LGEDevice ProtocolDevice : Type.
Variable DeviceType_eq_dec : forall a b : DeviceType, {a = b} + {a <> b}.
Variable CLIMATE_DEVICE_TYPES : list DeviceType.
Variables DOMAIN LGE_DEVICES : string.
Variable device : LGEDevice -> ProtocolDevice.
Variable name : LGEDevice -> string.
Variable api_unique_id : LGEDevice -> string.

Lemma is_climate_type_true (dev_type : DeviceType) :
  is_climate_type DeviceType_eq_dec CLIMATE_DEVICE_TYPES dev_type = true
  <-> In dev_type CLIMATE_DEVICE_TYPES.
Proof.
  unfold is_climate_type.
  destruct (in_dec DeviceType_eq_dec dev_type CLIMATE_DEVICE_TYPES).
  - tauto.
  - split; [discriminate | contradiction].
Qed.

(** The loop appends, in registry order, the lists of the climate types. *)
Lemma collect_climate_devices_spec (lge_devices : Registry DeviceType LGEDevice) :
  collect_climate_devices DeviceType_eq_dec CLIMATE_DEVICE_TYPES lge_devices
  = concat (map snd
              (filter (fun item =>
                         is_climate_type DeviceType_eq_dec CLIMATE_DEVICE_TYPES
                                         (fst item))
                      lge_devices)).
Proof.
  unfold collect_climate_devices.
  rewrite <- (app_nil_l (concat _)).
  generalize (@nil LGEDevice) as acc.
  induction lge_devices as [|[dev_type devices] rest IH]; intros acc; simpl.
  - now rewrite app_nil_r.
  - rewrite IH.
    destruct (is_climate_type DeviceType_eq_dec CLIMATE_DEVICE_TYPES dev_type);
      simpl; [now rewrite app_assoc | reflexivity].
Qed.

Lemma py_not_dict_true {A : Type} (d : option (list A)) :
  py_not_dict d = true <-> d = None \/ d = Some [].
Proof.
  destruct d as [[|a l]|]; simpl.
  - split; [auto | reflexivity].
  - split; [discriminate | intros [H|H]; discriminate].
  - split; [auto | reflexivity].
Qed.

Lemma string_length_append (s t : string) :
  String.length (s ++ t) = String.length s + String.length t.
Proof.
  induction s as [|c s IH]; simpl; [reflexivity | now rewrite IH].
Qed.

Lemma string_append_inj_l (t s1 s2 : string) :
  (s1 ++ t)%string = (s2 ++ t)%string -> s1 = s2.
Proof.
  revert s2.
  induction s1 as [|c1 s1 IH]; intros [|c2 s2]; simpl; intros Heq.
  - reflexivity.
  - apply (f_equal String.length) in Heq. simpl in Heq.
    rewrite string_length_append in Heq. lia.
  - apply (f_equal String.length) in Heq. simpl in Heq.
    rewrite string_length_append in Heq. lia.
  - injection Heq as -> Heq. f_equal. now apply IH.
Qed.

(** X14: [async_setup_entry] raises [KeyError] exactly when [hass.data] has
    no entry for the domain.  It calls [async_add_entities] at most once,
    and not at all exactly when the domain entry is missing or its device
    registry is missing or empty. *)
Theorem async_setup_entry_registers_once
    (hass_data : PyDict.t (PyDict.t (Registry DeviceType LGEDevice))) :
  let result :=
    async_setup_entry DeviceType_eq_dec CLIMATE_DEVICE_TYPES DOMAIN LGE_DEVICES
                      device name hass_data in
  (fst result = Some (KeyError DOMAIN) <-> PyDict.get hass_data DOMAIN = None)
  /\ (fst result = None <-> PyDict.get hass_data DOMAIN <> None)
  /\ length (snd result) <= 1
  /\ (snd result = [] <->
      PyDict.get hass_data DOMAIN = None
      \/ exists entry_config,
           PyDict.get hass_data DOMAIN = Some entry_config
           /\ (PyDict.get entry_config LGE_DEVICES = None
               \/ PyDict.get entry_config LGE_DEVICES = Some [])).
Proof.
  unfold async_setup_entry.
  destruct (PyDict.get hass_data DOMAIN) as [entry_config|]; cbn zeta.
  - destruct (py_not_dict (PyDict.get entry_config LGE_DEVICES)) eqn:Hnot;
      cbn [fst snd length].
    + apply py_not_dict_true in Hnot.
      split; [split; discriminate|].
      split; [split; [discriminate | reflexivity]|].
      split; [lia|].
      split; [|reflexivity].
      intros _. right. now exists entry_config.
    + split; [split; discriminate|].
      split; [split; [discriminate | reflexivity]|].
      split; [lia|].
      split; [discriminate|].
      intros [Hnone | [cfg [Heq Hempty]]]; [discriminate|].
      injection Heq as <-.
      apply py_not_dict_true in Hempty. congruence.
  - cbn [fst snd length].
    split; [split; reflexivity|].
    split; [split; [discriminate | congruence]|].
    split; [lia|].
    split; [auto | reflexivity].
Qed.

(** X15: with a registry that is not empty, [async_setup_entry] calls
    [async_add_entities] once, with one entity per device handle listed
    under a climate device type, in registry order and no others; each
    entity holds the protocol device and the name of its handle. *)
Theorem async_setup_entry_entities
    (hass_data : PyDict.t (PyDict.t (Registry DeviceType LGEDevice)))
    (entry_config : PyDict.t (Registry DeviceType LGEDevice))
    (lge_devices : Registry DeviceType LGEDevice) :
  PyDict.get hass_data DOMAIN = Some entry_config ->
  PyDict.get entry_config LGE_DEVICES = Some lge_devices ->
  lge_devices <> [] ->
  exists lge_climates,
    async_setup_entry DeviceType_eq_dec CLIMATE_DEVICE_TYPES DOMAIN LGE_DEVICES
                      device name hass_data
    = (None, [lge_climates])
    /\ map _api lge_climates
       = concat (map snd
                   (filter (fun item =>
                              is_climate_type DeviceType_eq_dec
                                              CLIMATE_DEVICE_TYPES (fst item))
                           lge_devices))
    /\ (forall lge_device,
           In lge_device (map _api lge_climates) <->
           exists dev_type devices,
             In (dev_type, devices) lge_devices
             /\ In dev_type CLIMATE_DEVICE_TYPES
             /\ In lge_device devices)
    /\ Forall (fun entity =>
                 _device entity = device (_api entity)
                 /\ _name entity = name (_api entity))
              lge_climates.
Proof.
  intros Hdomain Hregistry Hnonempty.
  unfold async_setup_entry. rewrite Hdomain. cbn zeta. rewrite Hregistry.
  assert (Hnot : py_not_dict (Some lge_devices) = false).
  { destruct lge_devices; [congruence | reflexivity]. }
  rewrite Hnot.
  eexists. split; [reflexivity|].
  cbn [app].
  assert (Hapi :
    map _api
        (map (fun lge_device => LGEACClimate_init name lge_device (device lge_device))
             (collect_climate_devices DeviceType_eq_dec CLIMATE_DEVICE_TYPES
                                      lge_devices))
    = concat (map snd
                (filter (fun item =>
                           is_climate_type DeviceType_eq_dec
                                           CLIMATE_DEVICE_TYPES (fst item))
                        lge_devices))).
  { rewrite map_map. cbn [_api LGEACClimate_init]. rewrite map_id.
    apply collect_climate_devices_spec. }
  split; [exact Hapi|]. split.
  - intros lge_device. rewrite Hapi, in_concat.
    split.
    + intros [devices [Hin Hd]].
      apply in_map_iff in Hin as [[dev_type devices'] [Hsnd Hf]].
      simpl in Hsnd. subst devices'.
      apply filter_In in Hf as [Hitem Hclimate].
      apply is_climate_type_true in Hclimate.
      now exists dev_type, devices.
    + intros [dev_type [devices [Hitem [Hclimate Hd]]]].
      exists devices. split; [|exact Hd].
      apply in_map_iff. exists (dev_type, devices). split; [reflexivity|].
      apply filter_In. split; [exact Hitem|].
      now apply is_climate_type_true.
  - apply Forall_forall. intros entity Hin.
    apply in_map_iff in Hin as [lge_device [<- _]].
    split; reflexivity.
Qed.

(** X16: a registry that lists devices but none under a climate device type
    still makes [async_setup_entry] call [async_add_entities], once, with an
    empty list. *)
Theorem async_setup_entry_no_climate_device
    (hass_data : PyDict.t (PyDict.t (Registry DeviceType LGEDevice)))
    (entry_config : PyDict.t (Registry DeviceType LGEDevice))
    (lge_devices : Registry DeviceType LGEDevice) :
  PyDict.get hass_data DOMAIN = Some entry_config ->
  PyDict.get entry_config LGE_DEVICES = Some lge_devices ->
  lge_devices <> [] ->
  (forall dev_type devices,
      In (dev_type, devices) lge_devices -> ~ In dev_type CLIMATE_DEVICE_TYPES) ->
  async_setup_entry DeviceType_eq_dec CLIMATE_DEVICE_TYPES DOMAIN LGE_DEVICES
                    device name hass_data
  = (None, [[]]).
Proof.
  intros Hdomain Hregistry Hnonempty Hnone.
  unfold async_setup_entry. rewrite Hdomain. cbn zeta. rewrite Hregistry.
  assert (Hnot : py_not_dict (Some lge_devices) = false).
  { destruct lge_devices; [congruence | reflexivity]. }
  rewrite Hnot, collect_climate_devices_spec.
  replace (filter _ lge_devices) with (@nil (DeviceType * list LGEDevice));
    [reflexivity|].
  symmetry.
  clear Hregistry Hnonempty Hnot.
  induction lge_devices as [|[dev_type devices] rest IH]; [reflexivity|].
  simpl.
  destruct (is_climate_type DeviceType_eq_dec CLIMATE_DEVICE_TYPES dev_type)
    eqn:Hc.
  - apply is_climate_type_true in Hc.
    exfalso. apply (Hnone dev_type devices); [now left | exact Hc].
  - apply IH. intros ty ds Hin. apply (Hnone ty ds). now right.
Qed.


End SetupFacts.

(** ** [set_temperature] *)

Section TemperatureFacts.

Context {PyVal : Type}.

(** X18: [set_temperature] sends the value of the [temperature] keyword when
    it is given and the current target temperature when it is not, and no
    other keyword changes what is sent. *)
Theorem set_temperature_keyword
    (kwargs : PyDict.t PyVal) (target_temperature : PyVal) :
  (PyDict.get kwargs "temperature" = None ->
   set_temperature kwargs target_temperature = set_target_temp target_temperature)
  /\ (forall temperature,
         set_temperature (PyDict.set kwargs "temperature" temperature)
                         target_temperature
         = set_target_temp temperature)
  /\ (forall key value,
         key <> "temperature" ->
         set_temperature (PyDict.set kwargs key value) target_temperature
         = set_temperature kwargs target_temperature).
Proof.
  unfold set_temperature.
  split; [|split].
  - intros ->. reflexivity.
  - intros temperature.
    now rewrite PyDictFacts.get_set, String.eqb_refl.
  - intros key value Hkey.
    rewrite PyDictFacts.get_set.
    apply String.eqb_neq in Hkey. now rewrite Hkey.
Qed.

End TemperatureFacts.

(** ** The further properties on the simulated clients and the installation *)

Lemma set_hvac_mode_running_sets_mode_only_witness :
  "heat" <> @HVAC_MODE_OFF homeassistant.modes
  /\ @hvac_mode homeassistant.modes (Ideal.api_state (world Ideal.cooling))
     <> Some "off"
  /\ issued (snd (Ideal.run_set_hvac_mode "heat" Ideal.cooling))
     = [set_op_mode "HEAT"].
Proof.
  assert (Hoff : "heat" <> @HVAC_MODE_OFF homeassistant.modes)
    by (simpl; discriminate).
  assert (Hcur : @hvac_mode homeassistant.modes
                   (Ideal.api_state (world Ideal.cooling))
                 <> Some (@HVAC_MODE_OFF homeassistant.modes))
    by (vm_compute; discriminate).
  split; [exact Hoff|]. split; [exact Hcur|].
  apply (@set_hvac_mode_running_sets_mode_only homeassistant.modes
           Ideal.World Ideal.DevExn Ideal.api_state Ideal.device_run
           "heat" "HEAT" Ideal.cooling Hoff eq_refl Hcur).
Defined.

Lemma set_hvac_mode_value_error_only_if_invalid_witness :
  fst (Simulated.run_set_hvac_mode "turbo" Simulated.idle)
  = Raised (ValueError "Invalid hvac_mode [turbo]")
  /\ PyDict.get (@HVAC_MODE_REVERSE_LOOKUP homeassistant.modes) "turbo" = None
  /\ snd (Simulated.run_set_hvac_mode "turbo" Simulated.idle) = Simulated.idle.
Proof.
  split; [reflexivity|].
  destruct (@set_hvac_mode_value_error_only_if_invalid homeassistant.modes
              Simulated.World Simulated.DevExn
              Simulated.api_state Simulated.device_run
              "turbo" "Invalid hvac_mode [turbo]" Simulated.idle eq_refl)
    as [_ [Hnone [_ Hsame]]].
  split; [exact Hnone | exact Hsame].
Defined.

Lemma set_hvac_mode_returns_witness :
  (forall c w, fst (Ideal.device_run c w) = None)
  /\ fst (Ideal.run_set_hvac_mode "dry" Ideal.standby) = Returned tt.
Proof.
  assert (Hquiet : forall c w, fst (Ideal.device_run c w) = None)
    by (intros c w; reflexivity).
  split; [exact Hquiet|].
  apply (@set_hvac_mode_returns homeassistant.modes
           Ideal.World Ideal.DevExn Ideal.api_state Ideal.device_run
           "dry" Ideal.standby Hquiet).
  right. exists "DRY". reflexivity.
Defined.


Lemma set_hvac_mode_calls_frame_witness :
  exists new,
    issued (snd (Simulated.run_set_hvac_mode "heat" Simulated.idle)) = new
    /\ length new <= 2
    /\ ~ In (power false) new.
Proof.
  destruct (@set_hvac_mode_calls_frame homeassistant.modes
              Simulated.World Simulated.DevExn
              Simulated.api_state Simulated.device_run
              "heat" Simulated.idle)
    as [new [Hissued [Hlen [Hoff _]]]].
  exists new. split; [exact Hissued|]. split; [exact Hlen|].
  intros Hin. apply Hoff in Hin. discriminate Hin.
Defined.

Lemma set_then_get_hvac_mode_witness :
  obedient Ideal.api_state Ideal.device_run
  /\ @hvac_mode homeassistant.modes
       (Ideal.api_state
          (world (snd (Ideal.run_set_hvac_mode "heat" Ideal.standby))))
     = Some "heat".
Proof.
  assert (Hobey : obedient Ideal.api_state Ideal.device_run)
    by (intros c w; split; reflexivity).
  split; [exact Hobey|].
  apply (@set_then_get_hvac_mode homeassistant.modes
           Ideal.World Ideal.DevExn Ideal.api_state Ideal.device_run
           "heat" Ideal.standby Hobey).
  right. exists "HEAT". reflexivity.
Defined.

Lemma hvac_mode_in_vocabulary_witness :
  @hvac_mode homeassistant.modes (world Ideal.cooling) = Some "cool"
  /\ In "cool" (@hvac_vocabulary homeassistant.modes).
Proof.
  split; [reflexivity|].
  apply (@hvac_mode_in_vocabulary homeassistant.modes (world Ideal.cooling)).
  reflexivity.
Defined.

Lemma hvac_mode_off_iff_witness :
  ~ In (@HVAC_MODE_OFF homeassistant.modes) (@translated_modes homeassistant.modes)
  /\ @hvac_mode homeassistant.modes (world Ideal.cooling) <> Some "off".
Proof.
  split; [exact homeassistant_off_untranslated|].
  intros Hoff.
  apply (@hvac_mode_off_iff homeassistant.modes (world Ideal.cooling)
           homeassistant_off_untranslated) in Hoff.
  destruct Hoff as [H|H]; discriminate H.
Defined.

Lemma hvac_modes_complete_witness :
  In "FAN" (op_modes Simulated.window_unit)
  /\ In (Some "fan_only") (@hvac_modes homeassistant.modes Z Simulated.window_unit)
  /\ length (@hvac_modes homeassistant.modes Z Simulated.window_unit) <= 4.
Proof.
  destruct (@hvac_modes_complete homeassistant.modes Z Simulated.window_unit)
    as [Hadv [_ Hlen]].
  assert (Hin : In "FAN" (op_modes Simulated.window_unit))
    by (simpl; tauto).
  split; [exact Hin|].
  split; [apply (Hadv "FAN" "fan_only" Hin); reflexivity | exact Hlen].
Defined.

Lemma hvac_modes_NoDup_witness :
  NoDup (op_modes Simulated.window_unit)
  /\ NoDup (@hvac_modes homeassistant.modes Z Simulated.window_unit).
Proof.
  assert (Hnd : NoDup (op_modes Simulated.window_unit))
    by (repeat constructor; simpl; intuition discriminate).
  split; [exact Hnd|].
  apply (@hvac_modes_NoDup homeassistant.modes Z Simulated.window_unit
           homeassistant_off_untranslated homeassistant_translated_distinct Hnd).
Defined.

Lemma hvac_mode_advertised_witness :
  (forall mode,
      operation_mode (world Ideal.cooling) = Some mode ->
      In mode (op_modes Simulated.window_unit))
  /\ In (Some "cool") (@hvac_modes homeassistant.modes Z Simulated.window_unit).
Proof.
  assert (Hreported : forall mode,
             operation_mode (world Ideal.cooling) = Some mode ->
             In mode (op_modes Simulated.window_unit)).
  { intros mode Hmode. injection Hmode as <-. simpl. tauto. }
  split; [exact Hreported|].
  destruct (@hvac_mode_advertised homeassistant.modes Z
              (world Ideal.cooling) Simulated.window_unit Hreported)
    as [Hnone | Hin].
  - discriminate Hnone.
  - exact Hin.
Defined.

Lemma advertised_modes_settable_witness :
  In (Some "cool") (@hvac_modes homeassistant.modes Z Simulated.window_unit)
  /\ fst (Simulated.run_set_hvac_mode "cool" Simulated.lost)
     <> Raised (ValueError "Invalid hvac_mode [cool]").
Proof.
  assert (Hadv : In (Some "cool")
                    (@hvac_modes homeassistant.modes Z Simulated.window_unit))
    by (simpl; tauto).
  split; [exact Hadv|].
  apply (@advertised_modes_settable homeassistant.modes Z
           Simulated.World Simulated.DevExn
           Simulated.api_state Simulated.device_run
           Simulated.window_unit "cool" "Invalid hvac_mode [cool]"
           Simulated.lost Hadv).
Defined.

Lemma supported_features_only_known_bits_witness :
  Z.testbit (@supported_features homeassistant.features Z Simulated.window_unit) 5
  = true
  /\ (Z.testbit (@SUPPORT_FAN_MODE homeassistant.features) 5 = true
      \/ Z.testbit (@SUPPORT_TARGET_TEMPERATURE homeassistant.features) 5 = true
      \/ Z.testbit (@SUPPORT_SWING_MODE homeassistant.features) 5 = true).
Proof.
  split; [reflexivity|].
  apply (proj1 (@supported_features_only_known_bits homeassistant.features Z
                  Simulated.window_unit) 5%Z).
  reflexivity.
Defined.

Lemma async_setup_entry_registers_once_witness :
  PyDict.get (@nil (string * PyDict.t (Registry Home.DeviceType Home.LGEDevice)))
             "smartthinq_sensors" = None
  /\ fst (Home.setup []) = Some (KeyError "smartthinq_sensors")
  /\ snd (Home.setup []) = [].
Proof.
  destruct (@async_setup_entry_registers_once
              Home.DeviceType Home.LGEDevice Home.LGEDevice
              Home.DeviceType_eq_dec [Home.AC]
              "smartthinq_sensors" "lge_devices"
              (fun d => d) (fun d => d) [])
    as [Hraise [_ [_ Hnone]]].
  split; [reflexivity|].
  split.
  - apply Hraise. reflexivity.
  - apply Hnone. left. reflexivity.
Defined.

Lemma async_setup_entry_entities_witness :
  Home.registry <> []
  /\ exists lge_climates,
       Home.setup (Home.hass_data Home.registry) = (None, [lge_climates])
       /\ map _api lge_climates = ["ac-1"; "ac-2"].
Proof.
  assert (Hnonempty : Home.registry <> []) by discriminate.
  split; [exact Hnonempty|].
  destruct (@async_setup_entry_entities
              Home.DeviceType Home.LGEDevice Home.LGEDevice
              Home.DeviceType_eq_dec [Home.AC]
              "smartthinq_sensors" "lge_devices"
              (fun d => d) (fun d => d)
              (Home.hass_data Home.registry)
              [("lge_devices", Home.registry)] Home.registry
              eq_refl eq_refl Hnonempty)
    as [lge_climates [Hsetup [Hapi _]]].
  exists lge_climates. split; [exact Hsetup | exact Hapi].
Defined.

Lemma async_setup_entry_no_climate_device_witness :
  Home.laundry <> []
  /\ (forall dev_type devices,
         In (dev_type, devices) Home.laundry -> ~ In dev_type [Home.AC])
  /\ Home.setup (Home.hass_data Home.laundry) = (None, [[]]).
Proof.
  assert (Hnonempty : Home.laundry <> []) by discriminate.
  assert (Hnone : forall dev_type devices,
             In (dev_type, devices) Home.laundry -> ~ In dev_type [Home.AC]).
  { intros dev_type devices [Hitem|[]] [Hac|[]].
    injection Hitem as <- _. discriminate Hac. }
  split; [exact Hnonempty|]. split; [exact Hnone|].
  apply (@async_setup_entry_no_climate_device
           Home.DeviceType Home.LGEDevice Home.LGEDevice
           Home.DeviceType_eq_dec [Home.AC]
           "smartthinq_sensors" "lge_devices"
           (fun d => d) (fun d => d)
           (Home.hass_data Home.laundry)
           [("lge_devices", Home.laundry)] Home.laundry
           eq_refl eq_refl Hnonempty Hnone).
Defined.


Lemma set_temperature_keyword_witness :
  "hvac_mode" <> "temperature"
  /\ set_temperature (PyDict.set [("temperature", 22%Z)] "hvac_mode" 3%Z) 20%Z
     = set_target_temp 22%Z
  /\ set_temperature (@nil (string * Z)) 20%Z = set_target_temp 20%Z.
Proof.
  assert (Hkey : "hvac_mode" <> "temperature") by discriminate.
  split; [exact Hkey|].
  split.
  - apply (proj2 (proj2 (@set_temperature_keyword Z [("temperature", 22%Z)] 20%Z))
             "hvac_mode" 3%Z Hkey).
  - apply (proj1 (@set_temperature_keyword Z [] 20%Z)). reflexivity.
Defined.
